(** * common-mq: the AMQP client of [lib/amqp.js]

    A shallow embedding of the class [AMPQ] (an [EventEmitter] wrapped around
    an amqplib connection) and the properties of its constructor, of
    [connectToTopic] with its per-delivery consume callback, and of
    [pushToTopic].

    The class talks to three collaborators that are not part of the
    repository: the amqplib transport, the JavaScript runtime ([JSON.parse],
    [Buffer.from]) and the listeners attached to the emitter.  Each of them is
    a record of answers the code receives; the theorems quantify over all of
    them.  What the code itself does (which transport operation it calls, in
    which order, which event it emits with which payload, what it returns or
    throws) is the part that is computed. *)

From Stdlib Require Import ZArith.
From stdpp Require Import base gmap strings list pretty.

Set Warnings "-register-all".

(** ** JavaScript values *)

(** Thrown values are [Error] objects: a constructor name and a message. *)
Record JsError : Type := mkError { name : string; message : string }.

(** The values that reach the client.  Numbers are integers (the client
    does no arithmetic), strings stand for their UTF-8 text, an object is its
    own enumerable properties. *)
Inductive value : Type :=
| VUndefined
| VNull
| VBool (b : bool)
| VNumber (n : Z)
| VString (s : string)
| VBuffer (bytes : list Byte.byte)
| VError (e : JsError)
| VObject (props : gmap string value).

(** A handle to a transport object (a connection or a channel). *)
Inductive handle : Type := Handle (id : nat).

(** How an expression completes: with a value, or by throwing.  Awaiting a
    promise completes the same way: a fulfilled promise gives its value, a
    rejected one throws its reason. *)
Inductive completion (A : Type) : Type :=
| Normal (a : A)
| Throw (e : JsError).
Arguments Normal {A} a.
Arguments Throw {A} e.

Definition TypeError (m : string) : JsError := mkError "TypeError" m.
Definition SyntaxError (m : string) : JsError := mkError "SyntaxError" m.
Definition Error (m : string) : JsError := mkError "Error" m.

(** [!v] is [negb (truthy v)]. *)
Definition truthy (v : value) : bool :=
  match v with
  | VUndefined | VNull => false
  | VBool b => b
  | VNumber n => negb (n =? 0)%Z
  | VString EmptyString => false
  | VString (String _ _) => true
  | VBuffer _ | VError _ | VObject _ => true
  end.

(** [v === true]. *)
Definition is_true (v : value) : bool :=
  match v with
  | VBool true => true
  | _ => false
  end.

(** The property read [v.k], for the properties this program reads
    ([exchange], [name], [type], [consume], [acknowledge], [content],
    [message]): reading from [undefined] or [null] throws, an object gives its
    own property or [undefined], an [Error] has its [name] and [message], and
    the other values have none of these properties. *)
Definition get (v : value) (k : string) : completion value :=
  match v with
  | VUndefined =>
      Throw (TypeError ("Cannot read property '" +:+ k +:+ "' of undefined"))
  | VNull =>
      Throw (TypeError ("Cannot read property '" +:+ k +:+ "' of null"))
  | VObject props => Normal (default VUndefined (props !! k))
  | VError e =>
      if String.eqb k "message" then Normal (VString (message e))
      else if String.eqb k "name" then Normal (VString (name e))
      else Normal VUndefined
  | VBool _ | VNumber _ | VString _ | VBuffer _ => Normal VUndefined
  end.

(** The method call [v.toString()].  A buffer decodes to its text; an object
    answers with [Object.prototype.toString] unless an own [toString]
    property shadows it, which here can only be a value that is not
    callable. *)
Definition toString (v : value) : completion string :=
  match v with
  | VUndefined =>
      Throw (TypeError "Cannot read property 'toString' of undefined")
  | VNull =>
      Throw (TypeError "Cannot read property 'toString' of null")
  | VBool b => Normal (if b then "true" else "false")
  | VNumber n => Normal (pretty n)
  | VString s => Normal s
  | VBuffer bytes => Normal (String.string_of_list_byte bytes)
  | VError e => Normal (name e +:+ ": " +:+ message e)
  | VObject props =>
      match props !! "toString" with
      | Some _ => Throw (TypeError "toString is not a function")
      | None => Normal "[object Object]"
      end
  end.

(** The own enumerable properties [Object.assign] copies from a source. *)
Definition own_enumerable (source : value) : gmap string value :=
  match source with
  | VObject props => props
  | _ => ∅
  end.

(** [Object.assign(target, source)]: every own property of [source] is
    written onto [target], so on a shared key the source wins. *)
Definition Object_assign (target : gmap string value) (source : value)
  : value :=
  VObject (own_enumerable source ∪ target).

(** ** The collaborators *)

(** The runtime functions the client calls and the listeners attached to
    it.  [listeners ev payload] is how [emit(ev, payload)] completes: [None]
    when every listener returns, [Some e] when the emission throws [e]
    (a listener throws, or an [error] event finds no listener and the emitter
    throws on its own). *)
Record Runtime : Type := {
  JSON_parse : string → completion value;
  Buffer_from : value → completion (list Byte.byte);
  listeners : string → value → option JsError;
}.

(** The answers of the amqplib transport to each operation.  The client
    awaits [connect], [createChannel], [assertExchange], [assertQueue],
    [bindQueue] and [publish]: their answer is how the awaited promise
    settles.  It does not await [consume] and [ack]: their answer is whether
    the call itself returns or throws. *)
Record Transport : Type := {
  connect : value → completion handle;
  createChannel : handle → completion handle;
  assertExchange : handle → value → value → completion value;
  assertQueue : handle → value → completion value;
  bindQueue : handle → value → value → value → completion value;
  consume : handle → value → completion unit;
  ack : handle → value → completion unit;
  publish : handle → value → value → list Byte.byte → completion value;
}.

(** What the client does to the outside, in order. *)
Inductive action : Type :=
| Connect (configuration : value)
| CreateChannel (conn : handle)
| On (emitter : handle) (event : string)
| AssertExchange (ch : handle) (exchange type : value)
| AssertQueue (ch : handle) (queue : value)
| BindQueue (ch : handle) (queue exchange routingKey : value)
| Consume (ch : handle) (queue : value)
| Ack (ch : handle) (msg : value)
| Publish (ch : handle) (exchange routingKey : value)
    (content : list Byte.byte)
| Emit (event : string) (payload : value).

(** ** The instance and the monad of its methods *)

(** The fields of an [AMPQ] instance.  [None] is [null] (or, for
    [mqConnection], not yet assigned). *)
Record AMPQ : Type := mkAMPQ {
  channel : option handle;
  connection : option handle;
  mqConnection : option handle;
  topic : value;
  configuration : value;
  opts : value;
}.

(** A method body: from the instance, a completion, the instance after it
    and the actions performed.  Fields assigned and actions done before a
    throw stay.  An [async] method completes as its promise settles:
    [Normal] is a fulfilled promise, [Throw] a rejected one. *)
Definition M (A : Type) : Type :=
  AMPQ → completion A * AMPQ * list action.

Definition ret {A} (a : A) : M A := λ s, (Normal a, s, []).

Definition throw {A} (e : JsError) : M A := λ s, (Throw e, s, []).

Definition bind {A B} (m : M A) (k : A → M B) : M B := λ s,
  match m s with
  | (Normal a, s1, t1) =>
      match k a s1 with
      | (r, s2, t2) => (r, s2, t1 ++ t2)
      end
  | (Throw e, s1, t1) => (Throw e, s1, t1)
  end.

Declare Scope js_scope.
Delimit Scope js_scope with js.
Notation "x <- m ;; k" := (bind m (λ x, k))
  (at level 100, m at next level, right associativity) : js_scope.
Notation "m ;; k" := (bind m (λ _, k))
  (at level 100, right associativity) : js_scope.
Local Open Scope js_scope.

Definition lift {A} (c : completion A) : M A := λ s, (c, s, []).

Definition perform (a : action) : M unit := λ s, (Normal tt, s, [a]).

Definition this : M AMPQ := λ s, (Normal s, s, []).

Definition assign (f : AMPQ → AMPQ) : M unit := λ s, (Normal tt, f s, []).

(** A call to the outside: the action is performed, then its answer
    decides how the call completes. *)
Definition call {A} (a : action) (answer : completion A) : M A :=
  perform a ;; lift answer.

(** [try { body } catch (e) { handler e } finally { final }]. The handler
    runs when the body throws; [final] runs in every case, last, and when it
    throws, its error replaces the completion reached so far. *)
Definition try_catch_finally {A} (body : M A) (handler : JsError → M A)
    (final : M unit) : M A := λ s,
  let '(r1, s1, t1) :=
    match body s with
    | (Normal a, s0, t0) => (Normal a, s0, t0)
    | (Throw e, s0, t0) =>
        match handler e s0 with
        | (r, s', t') => (r, s', t0 ++ t')
        end
    end in
  match final s1 with
  | (Normal _, s2, t2) => (r1, s2, t1 ++ t2)
  | (Throw e, s2, t2) => (Throw e, s2, t1 ++ t2)
  end.

(** [promise.catch(handler)], and [try { body } catch (e) { handler e }]. *)
Definition try_catch {A} (body : M A) (handler : JsError → M A) : M A :=
  try_catch_finally body handler (ret tt).

Definition set_channel (c : option handle) (s : AMPQ) : AMPQ :=
  mkAMPQ c (connection s) (mqConnection s) (topic s) (configuration s)
    (opts s).

Definition set_connection (c : option handle) (s : AMPQ) : AMPQ :=
  mkAMPQ (channel s) c (mqConnection s) (topic s) (configuration s) (opts s).

Definition set_mqConnection (c : option handle) (s : AMPQ) : AMPQ :=
  mkAMPQ (channel s) (connection s) c (topic s) (configuration s) (opts s).

(** [this.channel.f(...)] and [this.connection.f(...)]: the receiver must
    not be [null]. *)
Definition receiver (field : string) (h : option handle) : M handle :=
  match h with
  | Some c => ret c
  | None => throw (TypeError ("this." +:+ field +:+ " is null"))
  end.

(** ** The class [AMPQ] *)

Section Client.

Variable R : Runtime.
Variable T : Transport.

(** [this.emit(ev, payload)]: the event is emitted, and the listeners decide
    whether the call returns or throws. *)
Definition emit (ev : string) (payload : value) : M unit :=
  perform (Emit ev payload) ;;
  match listeners R ev payload with
  | None => ret tt
  | Some e => throw e
  end.

(** The default value of the parameter [opts]. *)
Definition default_opts : value :=
  VObject (<["consume" := VBool true]> (<["acknowledge" := VBool true]> ∅)).

(** A default parameter value applies when the argument is [undefined],
    which is also what an omitted argument is. *)
Definition default_parameter (argument default_value : value) : value :=
  match argument with
  | VUndefined => default_value
  | _ => argument
  end.

(** The synchronous part of [new AMPQ(incomingConfiguration, topic, opts)]:
    the fields are declared, an absent configuration is a hard error, and
    otherwise [mq.connect] is called.  The promise it returns settles
    later, see [connected]. *)
Definition constructor (incomingConfiguration topic_arg opts_arg : value)
  : M unit :=
  assign (λ _, mkAMPQ None None None topic_arg incomingConfiguration
                 (default_parameter opts_arg default_opts)) ;;
  if truthy incomingConfiguration
  then perform (Connect incomingConfiguration)
  else throw (Error "No incoming configuration was found!").

(** The expression [JSON.parse(msg.content.toString())]. *)
Definition parse_body (msg : value) : completion value :=
  match get msg "content" with
  | Throw e => Throw e
  | Normal content =>
      match toString content with
      | Throw e => Throw e
      | Normal text => JSON_parse R text
      end
  end.

(** The callback given to [channel.consume], called with each delivery. *)
Definition consumeCallback (msg : value) : M unit :=
  try_catch_finally
    (jsonMessage <- lift (parse_body msg) ;;
     let outgoingMessage :=
       Object_assign (<["message" := jsonMessage]> ∅) msg in
     emit "message" outgoingMessage)
    (λ e,
       let error := SyntaxError (message e) in
       emit "error" (VError error))
    (s <- this ;;
     acknowledge <- lift (get (opts s) "acknowledge") ;;
     if is_true acknowledge
     then
       ch <- receiver "channel" (channel s) ;;
       call (Ack ch msg) (ack T ch msg)
     else ret tt).

(** [this.configuration.exchange.name] and [.type]. *)
Definition exchange_field (k : string) : M value :=
  s <- this ;;
  exchange <- lift (get (configuration s) "exchange") ;;
  lift (get exchange k).

(** [async connectToTopic()]. *)
Definition connectToTopic : M unit :=
  s <- this ;;
  assign (set_connection (mqConnection s)) ;;
  conn <- receiver "connection" (mqConnection s) ;;
  ch <- call (CreateChannel conn) (createChannel T conn) ;;
  assign (set_channel (Some ch)) ;;
  perform (On conn "error") ;;
  perform (On ch "error") ;;
  exchange_name <- exchange_field "name" ;;
  exchange_type <- exchange_field "type" ;;
  call (AssertExchange ch exchange_name exchange_type)
       (assertExchange T ch exchange_name exchange_type) ;;
  result <- call (AssertQueue ch (topic s)) (assertQueue T ch (topic s)) ;;
  exchange_name' <- exchange_field "name" ;;
  call (BindQueue ch (topic s) exchange_name' (topic s))
       (bindQueue T ch (topic s) exchange_name' (topic s)) ;;
  emit "system" result ;;
  consume_flag <- lift (get (opts s) "consume") ;;
  if is_true consume_flag
  then call (Consume ch (topic s)) (consume T ch (topic s))
  else ret tt.

(** What happens once the promise of [mq.connect] settles: the chain
    [.then(async newConnection => ...).catch(e => ...)] of the
    constructor.  The handler of [catch] sees a failed connection and
    anything [connectToTopic] throws. *)
Definition connected : M unit :=
  try_catch
    (s <- this ;;
     newConnection <- lift (connect T (configuration s)) ;;
     assign (set_mqConnection (Some newConnection)) ;;
     connectToTopic)
    (λ e, emit "error" (VString (message e))).

Definition no_channel_message : string :=
  "No open communication channel found. Was the connection to the message queue server successful?".

(** [async pushToTopic(message)]. *)
Definition pushToTopic (message : value) : M bool :=
  s <- this ;;
  match channel s with
  | None =>
      emit "error" (VString no_channel_message) ;;
      ret false
  | Some ch =>
      exchange_name <- exchange_field "name" ;;
      content <- lift (Buffer_from R message) ;;
      result <- call (Publish ch exchange_name (topic s) content)
                     (publish T ch exchange_name (topic s) content) ;;
      let messageToEmit :=
        VObject (<["pushResult" := result]> (<["message" := message]> ∅)) in
      emit "system" messageToEmit ;;
      ret true
  end.

End Client.

(** The instance before its constructor has run. *)
Definition blank : AMPQ :=
  mkAMPQ None None None VUndefined VUndefined VUndefined.

(** [new AMPQ(...)] from its call to the moment the connection promise and
    everything chained on it has settled. *)
Definition new_AMPQ (R : Runtime) (T : Transport)
    (incomingConfiguration topic_arg opts_arg : value) : M unit :=
  constructor incomingConfiguration topic_arg opts_arg ;;
  connected R T.

(** ** Reading a run *)

Section Runs.

Context {A : Type}.

Definition outcome (run : completion A * AMPQ * list action)
  : completion A := run.1.1.

Definition after (run : completion A * AMPQ * list action) : AMPQ :=
  run.1.2.

Definition trace (run : completion A * AMPQ * list action)
  : list action := run.2.

End Runs.

(** The payloads of the events named [ev], in the order of emission. *)
Fixpoint emitted (ev : string) (t : list action) : list value :=
  match t with
  | [] => []
  | Emit ev' payload :: t' =>
      if String.eqb ev' ev then payload :: emitted ev t' else emitted ev t'
  | _ :: t' => emitted ev t'
  end.

(** Every event of a trace, with its name. *)
Fixpoint events (t : list action) : list (string * value) :=
  match t with
  | [] => []
  | Emit ev payload :: t' => (ev, payload) :: events t'
  | _ :: t' => events t'
  end.

(** The deliveries acknowledged, with the channel they were acknowledged
    on. *)
Fixpoint acks (t : list action) : list (handle * value) :=
  match t with
  | [] => []
  | Ack ch msg :: t' => (ch, msg) :: acks t'
  | _ :: t' => acks t'
  end.

(** The calls of the transport's [publish]. *)
Fixpoint publishes (t : list action)
  : list (handle * value * value * list Byte.byte) :=
  match t with
  | [] => []
  | Publish ch exchange routingKey content :: t' =>
      (ch, exchange, routingKey, content) :: publishes t'
  | _ :: t' => publishes t'
  end.

(** The subscriptions made with the transport's [consume]. *)
Fixpoint consumes (t : list action) : list (handle * value) :=
  match t with
  | [] => []
  | Consume ch queue :: t' => (ch, queue) :: consumes t'
  | _ :: t' => consumes t'
  end.

(** The four setup operations of the channel manager. *)
Inductive setup_step : Type :=
| StepCreateChannel
| StepAssertExchange
| StepAssertQueue
| StepBindQueue.

#[global] Instance setup_step_eq_dec : EqDecision setup_step.
Proof. solve_decision. Defined.

Definition setup_order : list setup_step :=
  [StepCreateChannel; StepAssertExchange; StepAssertQueue; StepBindQueue].

Definition setup_step_of (a : action) : option setup_step :=
  match a with
  | CreateChannel _ => Some StepCreateChannel
  | AssertExchange _ _ _ => Some StepAssertExchange
  | AssertQueue _ _ => Some StepAssertQueue
  | BindQueue _ _ _ _ => Some StepBindQueue
  | _ => None
  end.

(** The setup operations of a trace, in the order they were called. *)
Definition setup_steps (t : list action) : list setup_step :=
  omap setup_step_of t.

(** The actions that come before the first [system] event, when there is
    one. *)
Fixpoint before_system (t : list action) : option (list action) :=
  match t with
  | [] => None
  | Emit ev payload :: t' =>
      if String.eqb ev "system" then Some []
      else option_map (cons (Emit ev payload)) (before_system t')
  | a :: t' => option_map (cons a) (before_system t')
  end.

(** A configuration is valid for the client when it carries an exchange
    descriptor: [configuration.exchange.name] and [.type] can be read. *)
Definition valid_configuration (cfg : value) : bool :=
  match get cfg "exchange" with
  | Normal (VUndefined | VNull) | Throw _ => false
  | Normal _ => true
  end.

(** An awaited operation completed: its promise was fulfilled. *)
Definition completed {A} (c : completion A) : bool :=
  match c with
  | Normal _ => true
  | Throw _ => false
  end.

Arguments get : simpl never.
Arguments toString : simpl never.
Arguments parse_body : simpl never.
Arguments truthy : simpl never.

(** ** Tactics *)

(** Unfold the monad under a method body. *)
Ltac unfold_js :=
  unfold new_AMPQ, connected, connectToTopic, consumeCallback, pushToTopic,
    constructor, exchange_field, try_catch, try_catch_finally, emit, call,
    receiver, bind, lift, perform, this, assign, ret, throw,
    outcome, after, trace in *.

(** Decide the next answer of a collaborator the run depends on. *)
Ltac next_answer :=
  match goal with
  | H : ?x = _ |- context [?x] => progress rewrite H
  | |- context [match ?x with _ => _ end] =>
      lazymatch x with
      | context [match _ with _ => _ end] => fail
      | _ => destruct x eqn:?
      end
  end.

Ltac run_js := unfold_js; simpl; repeat (next_answer; simpl in *).

(** ** Concrete collaborators *)

(** The transport mocked in [tests/unit/amqp.spec.js]: every operation
    succeeds. *)
Definition mock_transport : Transport := {|
  connect := λ _, Normal (Handle 0);
  createChannel := λ _, Normal (Handle 1);
  assertExchange := λ _ _ _, Normal VUndefined;
  assertQueue := λ _ _, Normal (VString "assert success");
  bindQueue := λ _ _ _ _, Normal (VString "bind success");
  consume := λ _ _, Normal tt;
  ack := λ _ _, Normal tt;
  publish := λ _ _ _ _, Normal (VString "publish success");
|}.

(** A transport whose connection cannot open a channel. *)
Definition closed_transport : Transport := {|
  connect := λ _, Normal (Handle 0);
  createChannel := λ _, Throw (Error "Connection closed");
  assertExchange := λ _ _ _, Normal VUndefined;
  assertQueue := λ _ _, Normal (VString "assert success");
  bindQueue := λ _ _ _ _, Normal (VString "bind success");
  consume := λ _ _, Normal tt;
  ack := λ _ _, Normal tt;
  publish := λ _ _ _ _, Normal (VString "publish success");
|}.

(** [JSON.parse] on the texts used below: [1], [true], [null] and the
    empty object are parsed, and [not-json], the only other text used
    below, is refused with a [SyntaxError].  Any other text is refused as
    well, which is right only when it is not JSON. *)
Definition JSON_parse_documents (text : string) : completion value :=
  if String.eqb text "1" then Normal (VNumber 1)
  else if String.eqb text "true" then Normal (VBool true)
  else if String.eqb text "null" then Normal VNull
  else if String.eqb text "{}" then Normal (VObject ∅)
  else Throw (SyntaxError "Unexpected token in JSON at position 0").

(** [Buffer.from] on the values used below: a string is encoded, a buffer
    is copied, and a number, a boolean, [null] and [undefined] are refused
    with a [TypeError].  An object is refused as well, which is what the
    runtime does with a plain object but not with an array-like one; no
    object is encoded below. *)
Definition Buffer_from_scalars (v : value) : completion (list Byte.byte) :=
  match v with
  | VString s => Normal (String.list_byte_of_string s)
  | VBuffer bytes => Normal bytes
  | _ =>
      Throw (TypeError
        "The first argument must be of type string or an instance of Buffer, ArrayBuffer, or Array or an Array-like Object.")
  end.

(** Listeners are attached to every event and return. *)
Definition node : Runtime := {|
  JSON_parse := JSON_parse_documents;
  Buffer_from := Buffer_from_scalars;
  listeners := λ _ _, None;
|}.

(** No listener is attached to [error]: the emitter throws on an [error]
    event. *)
Definition node_without_error_listener : Runtime := {|
  JSON_parse := JSON_parse_documents;
  Buffer_from := Buffer_from_scalars;
  listeners := λ ev _,
    if String.eqb ev "error" then Some (Error "Unhandled error.") else None;
|}.

(** A listener of [message] throws. *)
Definition node_with_failing_listener : Runtime := {|
  JSON_parse := JSON_parse_documents;
  Buffer_from := Buffer_from_scalars;
  listeners := λ ev _,
    if String.eqb ev "message" then Some (Error "listener failed")
    else None;
|}.

(** The configuration of the unit tests, with its exchange descriptor. *)
Definition pillar_exchange : value :=
  VObject (<["name" := VString "pillar"]> (<["type" := VString "topic"]> ∅)).

Definition pillar_configuration : value :=
  VObject (<["protocol" := VString "amqp"]>
          (<["port" := VNumber 5672]>
          (<["vhost" := VString "notifications"]>
          (<["exchange" := pillar_exchange]> ∅)))).

(** The instance of the unit tests as the constructor returns it, with the
    connection still pending. *)
Definition pending_client : AMPQ :=
  after (constructor pillar_configuration (VString "anything") VUndefined
           blank).

(** The instance of the unit tests once its setup has completed. *)
Definition ready_client : AMPQ :=
  after (new_AMPQ node mock_transport pillar_configuration
           (VString "anything") VUndefined blank).

(** Options given in full, with acknowledgement turned off. *)
Definition unacknowledged_opts : value :=
  VObject (<["consume" := VBool true]> (<["acknowledge" := VBool false]> ∅)).

(** Partial options: one flag each. *)
Definition consume_only : gmap string value :=
  <["consume" := VBool true]> ∅.

Definition acknowledge_only : gmap string value :=
  <["acknowledge" := VBool true]> ∅.

(** The instance of the unit tests set up with [unacknowledged_opts]. *)
Definition unacknowledging_client : AMPQ :=
  after (new_AMPQ node mock_transport pillar_configuration
           (VString "anything") unacknowledged_opts blank).

(** A delivery as amqplib hands it over: [fields], [properties] and the
    body in [content]. *)
Definition delivery (body : string) : value :=
  VObject (<["fields" := VObject (<["deliveryTag" := VNumber 1]> ∅)]>
          (<["properties" := VObject ∅]>
          (<["content" := VBuffer (String.list_byte_of_string body)]> ∅))).


(** ** Reading a run: connections and registrations *)

(** The configurations [mq.connect] was called with. *)
Fixpoint connects (t : list action) : list value :=
  match t with
  | [] => []
  | Connect cfg :: t' => cfg :: connects t'
  | _ :: t' => connects t'
  end.

(** The registrations of a listener on a connection or a channel. *)
Fixpoint registrations (t : list action) : list (handle * string) :=
  match t with
  | [] => []
  | On emitter ev :: t' => (emitter, ev) :: registrations t'
  | _ :: t' => registrations t'
  end.

(** ** More concrete collaborators *)

(** A broker that cannot be reached. *)
Definition unreachable_transport : Transport := {|
  connect := λ _, Throw (Error "connect ECONNREFUSED");
  createChannel := λ _, Normal (Handle 1);
  assertExchange := λ _ _ _, Normal VUndefined;
  assertQueue := λ _ _, Normal (VString "assert success");
  bindQueue := λ _ _ _ _, Normal (VString "bind success");
  consume := λ _ _, Normal tt;
  ack := λ _ _, Normal tt;
  publish := λ _ _ _ _, Normal (VString "publish success");
|}.

(** The transport of the unit tests with one setup operation refused. *)
Definition refusing_transport (step : setup_step) : Transport := {|
  connect := λ _, Normal (Handle 0);
  createChannel := λ _,
    if decide (step = StepCreateChannel)
    then Throw (Error "createChannel refused")
    else Normal (Handle 1);
  assertExchange := λ _ _ _,
    if decide (step = StepAssertExchange)
    then Throw (Error "assertExchange refused")
    else Normal VUndefined;
  assertQueue := λ _ _,
    if decide (step = StepAssertQueue)
    then Throw (Error "assertQueue refused")
    else Normal (VString "assert success");
  bindQueue := λ _ _ _ _,
    if decide (step = StepBindQueue)
    then Throw (Error "bindQueue refused")
    else Normal (VString "bind success");
  consume := λ _ _, Normal tt;
  ack := λ _ _, Normal tt;
  publish := λ _ _ _ _, Normal (VString "publish success");
|}.

(** The transport of the unit tests with a channel that refuses to
    publish. *)
Definition congested_transport : Transport := {|
  connect := λ _, Normal (Handle 0);
  createChannel := λ _, Normal (Handle 1);
  assertExchange := λ _ _ _, Normal VUndefined;
  assertQueue := λ _ _, Normal (VString "assert success");
  bindQueue := λ _ _ _ _, Normal (VString "bind success");
  consume := λ _ _, Normal tt;
  ack := λ _ _, Normal tt;
  publish := λ _ _ _ _, Throw (Error "Channel closed");
|}.

(** A listener of [system] throws. *)
Definition node_with_failing_system_listener : Runtime := {|
  JSON_parse := JSON_parse_documents;
  Buffer_from := Buffer_from_scalars;
  listeners := λ ev _,
    if String.eqb ev "system" then Some (Error "system listener failed")
    else None;
|}.

(** A configuration given as a connection URL: it has no exchange
    descriptor. *)
Definition url_configuration : value := VString "amqp://localhost".

(** The instance of the unit tests whose queue assertion was refused. *)
Definition half_ready_client : AMPQ :=
  after (new_AMPQ node (refusing_transport StepAssertQueue)
           pillar_configuration (VString "anything") VUndefined blank).

(** * Properties *)

(** ** The fields of an instance *)

Lemma valid_configuration_truthy cfg :
  valid_configuration cfg = true → truthy cfg = true.
Proof. by destruct cfg. Qed.

(** The constructor stores its arguments, and nothing that follows the
    connection changes them. *)
Lemma new_AMPQ_fields R T cfg topic_arg opts_arg s :
  topic (after (new_AMPQ R T cfg topic_arg opts_arg s)) = topic_arg ∧
  configuration (after (new_AMPQ R T cfg topic_arg opts_arg s)) = cfg ∧
  opts (after (new_AMPQ R T cfg topic_arg opts_arg s))
    = default_parameter opts_arg default_opts.
Proof. run_js; done. Qed.

Lemma connectToTopic_fields R T s :
  topic (after (connectToTopic R T s)) = topic s ∧
  configuration (after (connectToTopic R T s)) = configuration s ∧
  opts (after (connectToTopic R T s)) = opts s.
Proof. run_js; done. Qed.

(** The callback is handed to [consume] only on a channel the instance
    holds, so a delivery always finds [this.channel] set. *)
Lemma subscribed_has_channel R T s ch queue :
  (ch, queue) ∈ consumes (trace (connectToTopic R T s)) →
  channel (after (connectToTopic R T s)) = Some ch ∧ queue = topic s.
Proof.
  run_js; intros Hin; try (by apply elem_of_nil in Hin);
    apply list_elem_of_singleton in Hin; by simplify_eq.
Qed.

(** Acknowledgements come from the consume callback alone. *)
Lemma only_callback_acknowledges R T cfg topic_arg opts_arg msg s :
  acks (trace (new_AMPQ R T cfg topic_arg opts_arg s)) = [] ∧
  acks (trace (connectToTopic R T s)) = [] ∧
  acks (trace (pushToTopic R T msg s)) = [].
Proof. split_and!; run_js; done. Qed.

(** Once the setup has emitted its [system] event the instance holds a
    channel and its configuration has an exchange name to publish to. *)
Lemma setup_complete_ready R T cfg topic_arg opts_arg s v :
  v ∈ emitted "system" (trace (new_AMPQ R T cfg topic_arg opts_arg s)) →
  ∃ ch exchange exchange_name,
    channel (after (new_AMPQ R T cfg topic_arg opts_arg s)) = Some ch ∧
    get cfg "exchange" = Normal exchange ∧
    get exchange "name" = Normal exchange_name.
Proof.
  run_js; intros Hin; try (by apply elem_of_nil in Hin);
    do 3 eexists; split_and!; first [reflexivity | eassumption].
Qed.

(** [pushToTopic] on an instance that holds a channel. *)
Lemma pushToTopic_with_channel R T s msg ch exchange exchange_name content :
  channel s = Some ch →
  get (configuration s) "exchange" = Normal exchange →
  get exchange "name" = Normal exchange_name →
  Buffer_from R msg = Normal content →
  publishes (trace (pushToTopic R T msg s))
    = [(ch, exchange_name, topic s, content)] ∧
  ∀ result,
    publish T ch exchange_name (topic s) content = Normal result →
    trace (pushToTopic R T msg s)
      = [Publish ch exchange_name (topic s) content;
         Emit "system"
           (VObject (<["pushResult" := result]> (<["message" := msg]> ∅)))] ∧
    (listeners R "system"
       (VObject (<["pushResult" := result]> (<["message" := msg]> ∅)))
       = None →
     outcome (pushToTopic R T msg s) = Normal true).
Proof.
  intros Hch Hex Hname Hcontent. split.
  - run_js; done.
  - intros result Hresult. split.
    + run_js; done.
    + intros Hsystem. run_js; done.
Qed.

(** ** The unit-test scenario *)

Example mock_setup_trace :
  trace (new_AMPQ node mock_transport pillar_configuration
           (VString "anything") VUndefined blank)
    = [Connect pillar_configuration;
       CreateChannel (Handle 0);
       On (Handle 0) "error";
       On (Handle 1) "error";
       AssertExchange (Handle 1) (VString "pillar") (VString "topic");
       AssertQueue (Handle 1) (VString "anything");
       BindQueue (Handle 1) (VString "anything") (VString "pillar")
         (VString "anything");
       Emit "system" (VString "assert success");
       Consume (Handle 1) (VString "anything")].
Proof. reflexivity. Qed.

Example mock_push_trace :
  pushToTopic node mock_transport (VString "hello!") ready_client
    = (Normal true, ready_client,
       [Publish (Handle 1) (VString "pillar") (VString "anything")
          (String.list_byte_of_string "hello!");
        Emit "system"
          (VObject (<["pushResult" := VString "publish success"]>
                   (<["message" := VString "hello!"]> ∅)))]).
Proof. reflexivity. Qed.

Example closed_setup_trace :
  new_AMPQ node closed_transport pillar_configuration (VString "anything")
    VUndefined blank
    = (Normal tt,
       mkAMPQ None (Some (Handle 0)) (Some (Handle 0)) (VString "anything")
         pillar_configuration default_opts,
       [Connect pillar_configuration;
        CreateChannel (Handle 0);
        Emit "error" (VString "Connection closed")]).
Proof. reflexivity. Qed.

Example delivery_handled :
  consumeCallback node mock_transport (delivery "1") ready_client
    = (Normal tt, ready_client,
       [Emit "message"
          (Object_assign (<["message" := VNumber 1]> ∅) (delivery "1"));
        Ack (Handle 1) (delivery "1")]).
Proof. reflexivity. Qed.

(** ** The consume callback: a body that does not parse *)

(** C1. For every delivery whose body fails to parse
    ([JSON.parse(msg.content.toString())] throws [e]), the consume callback
    emits exactly one event, an [error] event carrying a [SyntaxError] with
    the message of [e]; it emits no [message] event; and when the
    [acknowledge] option is [true] it then acknowledges that delivery on the
    channel exactly once, whatever the listeners of [error] do. *)
Theorem consumeCallback_malformed R T s msg e :
  parse_body R msg = Throw e →
  events (trace (consumeCallback R T msg s))
    = [("error", VError (SyntaxError (message e)))] ∧
  emitted "message" (trace (consumeCallback R T msg s)) = [] ∧
  ∀ ch,
    channel s = Some ch →
    get (opts s) "acknowledge" = Normal (VBool true) →
    trace (consumeCallback R T msg s)
      = [Emit "error" (VError (SyntaxError (message e))); Ack ch msg] ∧
    acks (trace (consumeCallback R T msg s)) = [(ch, msg)].
Proof.
  intros Hparse. split_and!.
  - run_js; done.
  - run_js; done.
  - intros ch Hch Hack. run_js; done.
Qed.

Lemma consumeCallback_malformed_witness :
  parse_body node_without_error_listener (delivery "not-json")
    = Throw (SyntaxError "Unexpected token in JSON at position 0") ∧
  channel ready_client = Some (Handle 1) ∧
  get (opts ready_client) "acknowledge" = Normal (VBool true) ∧
  events (trace (consumeCallback node_without_error_listener mock_transport
                   (delivery "not-json") ready_client))
    = [("error",
        VError (SyntaxError "Unexpected token in JSON at position 0"))] ∧
  acks (trace (consumeCallback node_without_error_listener mock_transport
                 (delivery "not-json") ready_client))
    = [(Handle 1, delivery "not-json")].
Proof.
  assert (parse_body node_without_error_listener (delivery "not-json")
            = Throw (SyntaxError "Unexpected token in JSON at position 0"))
    as Hparse by reflexivity.
  destruct (consumeCallback_malformed node_without_error_listener
              mock_transport ready_client (delivery "not-json") _ Hparse)
    as (Hevents & _ & Hack).
  destruct (Hack (Handle 1) eq_refl eq_refl) as [_ Hacks].
  split_and!; [exact Hparse | reflexivity | reflexivity | exact Hevents
              | exact Hacks].
Defined.

(** ** Setup *)

(** C2. For every valid configuration, once the connection is established
    the client calls the setup operations in the order channel creation,
    exchange assertion, queue assertion, bind, and each of them at most
    once, whatever the transport answers; a [system] event is emitted only
    after the four of them have been called once each, in that order, and
    have completed; and when the transport accepts the four operations the
    run is exactly: one channel creation, one exchange assertion, one queue
    assertion, one bind, then the [system] event, with no further setup
    operation and no further [system] event after it. *)
Theorem setup_sequence R T cfg topic_arg opts_arg s conn :
  valid_configuration cfg = true →
  connect T cfg = Normal conn →
  setup_steps (trace (new_AMPQ R T cfg topic_arg opts_arg s))
    `prefix_of` setup_order ∧
  (∀ pre,
     before_system (trace (new_AMPQ R T cfg topic_arg opts_arg s))
       = Some pre →
     setup_steps pre = setup_order ∧
     ∃ ch exchange_name exchange_type,
       pre = [Connect cfg; CreateChannel conn; On conn "error";
              On ch "error";
              AssertExchange ch exchange_name exchange_type;
              AssertQueue ch topic_arg;
              BindQueue ch topic_arg exchange_name topic_arg] ∧
       completed (createChannel T conn) = true ∧
       completed (assertExchange T ch exchange_name exchange_type) = true ∧
       completed (assertQueue T ch topic_arg) = true ∧
       completed (bindQueue T ch topic_arg exchange_name topic_arg) = true) ∧
  (∀ ch exchange exchange_name exchange_type x result b,
     createChannel T conn = Normal ch →
     get cfg "exchange" = Normal exchange →
     get exchange "name" = Normal exchange_name →
     get exchange "type" = Normal exchange_type →
     assertExchange T ch exchange_name exchange_type = Normal x →
     assertQueue T ch topic_arg = Normal result →
     bindQueue T ch topic_arg exchange_name topic_arg = Normal b →
     ∃ rest,
       trace (new_AMPQ R T cfg topic_arg opts_arg s)
         = [Connect cfg; CreateChannel conn; On conn "error";
            On ch "error";
            AssertExchange ch exchange_name exchange_type;
            AssertQueue ch topic_arg;
            BindQueue ch topic_arg exchange_name topic_arg;
            Emit "system" result] ++ rest ∧
       setup_steps rest = [] ∧ emitted "system" rest = []).
Proof.
  intros Hvalid Hconn.
  pose proof (valid_configuration_truthy _ Hvalid) as Htruthy.
  split_and!.
  - run_js; apply (bool_decide_unpack _); reflexivity.
  - intros pre. run_js; intros; simplify_eq;
      (split; [reflexivity |]);
      do 3 eexists; (split; [reflexivity |]);
      repeat match goal with
             | H : ?c = Normal _ |- context [completed ?c] => rewrite H
             end; done.
  - intros ch exchange exchange_name exchange_type x result b
      Hch Hex Hname Htype Hx Hresult Hb.
    run_js; eexists; (split_and!; [reflexivity | done | done]).
Qed.

Lemma setup_sequence_witness :
  valid_configuration pillar_configuration = true ∧
  connect mock_transport pillar_configuration = Normal (Handle 0) ∧
  setup_steps (trace (new_AMPQ node mock_transport pillar_configuration
                        (VString "anything") VUndefined blank))
    `prefix_of` setup_order ∧
  before_system (trace (new_AMPQ node mock_transport pillar_configuration
                          (VString "anything") VUndefined blank))
    = Some [Connect pillar_configuration; CreateChannel (Handle 0);
            On (Handle 0) "error"; On (Handle 1) "error";
            AssertExchange (Handle 1) (VString "pillar") (VString "topic");
            AssertQueue (Handle 1) (VString "anything");
            BindQueue (Handle 1) (VString "anything") (VString "pillar")
              (VString "anything")] ∧
  setup_steps [Connect pillar_configuration; CreateChannel (Handle 0);
               On (Handle 0) "error"; On (Handle 1) "error";
               AssertExchange (Handle 1) (VString "pillar")
                 (VString "topic");
               AssertQueue (Handle 1) (VString "anything");
               BindQueue (Handle 1) (VString "anything") (VString "pillar")
                 (VString "anything")]
    = setup_order ∧
  ∃ rest,
    trace (new_AMPQ node mock_transport pillar_configuration
             (VString "anything") VUndefined blank)
      = [Connect pillar_configuration; CreateChannel (Handle 0);
         On (Handle 0) "error"; On (Handle 1) "error";
         AssertExchange (Handle 1) (VString "pillar") (VString "topic");
         AssertQueue (Handle 1) (VString "anything");
         BindQueue (Handle 1) (VString "anything") (VString "pillar")
           (VString "anything");
         Emit "system" (VString "assert success")] ++ rest ∧
    setup_steps rest = [] ∧ emitted "system" rest = [].
Proof.
  destruct (setup_sequence node mock_transport pillar_configuration
              (VString "anything") VUndefined blank (Handle 0)
              eq_refl eq_refl) as (Hprefix & Hbefore & Haccepted).
  split_and!; [reflexivity | reflexivity | exact Hprefix | reflexivity
              | exact (proj1 (Hbefore _ eq_refl)) |].
  exact (Haccepted (Handle 1) pillar_exchange (VString "pillar")
           (VString "topic") VUndefined (VString "assert success")
           (VString "bind success")
           eq_refl eq_refl eq_refl eq_refl eq_refl eq_refl eq_refl).
Defined.

(** C9. The [system] event of the setup carries the result of the queue
    assertion and nothing else: every [system] event [connectToTopic] emits
    is its only one and its payload is what [assertQueue] returned for the
    topic; and when the four setup operations succeed, that event is
    emitted, whatever [bindQueue] returned. *)
Theorem system_event_payload R T s :
  (∀ v,
     v ∈ emitted "system" (trace (connectToTopic R T s)) →
     emitted "system" (trace (connectToTopic R T s)) = [v] ∧
     ∃ ch,
       channel (after (connectToTopic R T s)) = Some ch ∧
       assertQueue T ch (topic s) = Normal v) ∧
  (∀ conn ch exchange exchange_name exchange_type x result b,
     mqConnection s = Some conn →
     createChannel T conn = Normal ch →
     get (configuration s) "exchange" = Normal exchange →
     get exchange "name" = Normal exchange_name →
     get exchange "type" = Normal exchange_type →
     assertExchange T ch exchange_name exchange_type = Normal x →
     assertQueue T ch (topic s) = Normal result →
     bindQueue T ch (topic s) exchange_name (topic s) = Normal b →
     emitted "system" (trace (connectToTopic R T s)) = [result]).
Proof.
  split.
  - intros v. run_js; intros Hv; try (by apply elem_of_nil in Hv);
      apply list_elem_of_singleton in Hv; subst; eauto.
  - intros conn ch exchange exchange_name exchange_type x result b
      Hconn Hch Hex Hname Htype Hx Hresult Hb.
    run_js; done.
Qed.

Lemma system_event_payload_witness :
  assertQueue mock_transport (Handle 1) (topic ready_client)
    = Normal (VString "assert success") ∧
  bindQueue mock_transport (Handle 1) (topic ready_client)
    (VString "pillar") (topic ready_client)
    = Normal (VString "bind success") ∧
  emitted "system" (trace (connectToTopic node mock_transport ready_client))
    = [VString "assert success"] ∧
  ∃ ch,
    channel (after (connectToTopic node mock_transport ready_client))
      = Some ch ∧
    assertQueue mock_transport ch (topic ready_client)
      = Normal (VString "assert success").
Proof.
  destruct (system_event_payload node mock_transport ready_client)
    as [Hany Hsetup].
  assert (emitted "system"
            (trace (connectToTopic node mock_transport ready_client))
            = [VString "assert success"]) as Hemitted.
  { exact (Hsetup (Handle 0) (Handle 1) pillar_exchange (VString "pillar")
             (VString "topic") VUndefined (VString "assert success")
             (VString "bind success")
             eq_refl eq_refl eq_refl eq_refl eq_refl eq_refl eq_refl
             eq_refl). }
  assert (VString "assert success"
            ∈ emitted "system"
                (trace (connectToTopic node mock_transport ready_client)))
    as Hin by (apply list_elem_of_singleton; reflexivity).
  split_and!; [reflexivity | reflexivity | exact Hemitted
              | exact (proj2 (Hany _ Hin))].
Defined.

(** ** The consume callback: a body that parses *)




(** C4, as the code has it. The emission of the [message] event is inside
    the [try] block: when a listener throws [e] during it, the error reaches
    the same [catch] as a parse failure, an [error] event carrying a
    [SyntaxError] with the message of [e] is emitted, and the delivery is
    acknowledged once when [acknowledge] is [true]; the callback then
    returns normally, provided the emission of [error] and the
    acknowledgement return, so [e] does not escape. *)
Theorem consumeCallback_listener_error R T s msg jsonMessage e :
  parse_body R msg = Normal jsonMessage →
  listeners R "message" (Object_assign (<["message" := jsonMessage]> ∅) msg)
    = Some e →
  events (trace (consumeCallback R T msg s))
    = [("message", Object_assign (<["message" := jsonMessage]> ∅) msg);
       ("error", VError (SyntaxError (message e)))] ∧
  ∀ ch,
    channel s = Some ch →
    get (opts s) "acknowledge" = Normal (VBool true) →
    acks (trace (consumeCallback R T msg s)) = [(ch, msg)] ∧
    (listeners R "error" (VError (SyntaxError (message e))) = None →
     ack T ch msg = Normal tt →
     outcome (consumeCallback R T msg s) = Normal tt).
Proof.
  intros Hparse Hlistener. split.
  - run_js; done.
  - intros ch Hch Hack. split.
    + run_js; done.
    + intros Herror Hacked. run_js; done.
Qed.

Lemma consumeCallback_listener_error_witness :
  parse_body node_with_failing_listener (delivery "1")
    = Normal (VNumber 1) ∧
  listeners node_with_failing_listener "message"
    (Object_assign (<["message" := VNumber 1]> ∅) (delivery "1"))
    = Some (Error "listener failed") ∧
  events (trace (consumeCallback node_with_failing_listener mock_transport
                   (delivery "1") ready_client))
    = [("message",
        Object_assign (<["message" := VNumber 1]> ∅) (delivery "1"));
       ("error", VError (SyntaxError "listener failed"))] ∧
  acks (trace (consumeCallback node_with_failing_listener mock_transport
                 (delivery "1") ready_client))
    = [(Handle 1, delivery "1")] ∧
  outcome (consumeCallback node_with_failing_listener mock_transport
             (delivery "1") ready_client) = Normal tt.
Proof.
  assert (parse_body node_with_failing_listener (delivery "1")
            = Normal (VNumber 1)) as Hparse by reflexivity.
  assert (listeners node_with_failing_listener "message"
            (Object_assign (<["message" := VNumber 1]> ∅) (delivery "1"))
            = Some (Error "listener failed")) as Hthrows by reflexivity.
  destruct (consumeCallback_listener_error node_with_failing_listener
              mock_transport ready_client (delivery "1") (VNumber 1)
              (Error "listener failed") Hparse Hthrows)
    as [Hevents Hack].
  destruct (Hack (Handle 1) eq_refl eq_refl) as [Hacks Hreturns].
  split_and!; [exact Hparse | exact Hthrows | exact Hevents | exact Hacks
              | exact (Hreturns eq_refl eq_refl)].
Defined.

(** C4 as stated fails: a listener of [message] throws while the delivery
    is handled, and the callback returns normally, having emitted the error
    through its [catch] path. *)
Lemma listener_error_is_caught :
  parse_body node_with_failing_listener (delivery "1")
    = Normal (VNumber 1) ∧
  listeners node_with_failing_listener "message"
    (Object_assign (<["message" := VNumber 1]> ∅) (delivery "1"))
    = Some (Error "listener failed") ∧
  outcome (consumeCallback node_with_failing_listener mock_transport
             (delivery "1") ready_client) = Normal tt ∧
  emitted "error" (trace (consumeCallback node_with_failing_listener
                            mock_transport (delivery "1") ready_client))
    = [VError (SyntaxError "listener failed")].
Proof. split_and!; reflexivity. Qed.

(** C8. When the [acknowledge] option is [false], the callback never calls
    the channel's [ack], whether the body of the delivery parses or not and
    whatever the listeners do. *)
Theorem consumeCallback_acknowledge_false R T s msg :
  get (opts s) "acknowledge" = Normal (VBool false) →
  acks (trace (consumeCallback R T msg s)) = [].
Proof.
  intros Hack. run_js; done.
Qed.

Lemma consumeCallback_acknowledge_false_witness :
  get (opts unacknowledging_client) "acknowledge" = Normal (VBool false) ∧
  acks (trace (consumeCallback node mock_transport (delivery "1")
                 unacknowledging_client)) = [] ∧
  acks (trace (consumeCallback node mock_transport (delivery "not-json")
                 unacknowledging_client)) = [].
Proof.
  split_and!; [reflexivity | |].
  - apply (consumeCallback_acknowledge_false node mock_transport
             unacknowledging_client (delivery "1")).
    reflexivity.
  - apply (consumeCallback_acknowledge_false node mock_transport
             unacknowledging_client (delivery "not-json")).
    reflexivity.
Defined.

(** ** Publishing *)

(** C5, as the code has it. For every call of [pushToTopic] made while
    [this.channel] is [null], the call emits exactly one event, an [error]
    event with the descriptive message, and does nothing else: the
    transport's [publish] is not invoked.  The call returns [false] when
    that emission returns; when the emission throws (no listener is attached
    to [error], or a listener throws), the call is rejected with the error
    thrown. *)
Theorem pushToTopic_without_channel R T s msg :
  channel s = None →
  trace (pushToTopic R T msg s)
    = [Emit "error" (VString no_channel_message)] ∧
  publishes (trace (pushToTopic R T msg s)) = [] ∧
  (listeners R "error" (VString no_channel_message) = None →
   outcome (pushToTopic R T msg s) = Normal false) ∧
  (∀ e,
     listeners R "error" (VString no_channel_message) = Some e →
     outcome (pushToTopic R T msg s) = Throw e).
Proof.
  intros Hch. split_and!.
  - run_js; done.
  - run_js; done.
  - intros Hreturns. run_js; done.
  - intros e Hthrows. run_js; done.
Qed.

Lemma pushToTopic_without_channel_witness :
  channel pending_client = None ∧
  listeners node "error" (VString no_channel_message) = None ∧
  trace (pushToTopic node mock_transport (VString "hello!") pending_client)
    = [Emit "error" (VString no_channel_message)] ∧
  publishes (trace (pushToTopic node mock_transport (VString "hello!")
                      pending_client)) = [] ∧
  outcome (pushToTopic node mock_transport (VString "hello!") pending_client)
    = Normal false ∧
  listeners node_without_error_listener "error" (VString no_channel_message)
    = Some (Error "Unhandled error.") ∧
  outcome (pushToTopic node_without_error_listener mock_transport
             (VString "hello!") pending_client)
    = Throw (Error "Unhandled error.").
Proof.
  destruct (pushToTopic_without_channel node mock_transport pending_client
              (VString "hello!") eq_refl)
    as (Htrace & Hpublishes & Hreturns & _).
  destruct (pushToTopic_without_channel node_without_error_listener
              mock_transport pending_client (VString "hello!") eq_refl)
    as (_ & _ & _ & Hrejects).
  split_and!; [reflexivity | reflexivity | exact Htrace | exact Hpublishes
              | exact (Hreturns eq_refl) | reflexivity
              | exact (Hrejects _ eq_refl)].
Defined.

(** C5 as stated fails when no listener is attached to [error]: the call
    made before the channel exists does not return [false], it is
    rejected. *)
Lemma pushToTopic_unheard_error_rejects :
  channel pending_client = None ∧
  outcome (pushToTopic node_without_error_listener mock_transport
             (VString "hello!") pending_client)
    = Throw (Error "Unhandled error.") ∧
  outcome (pushToTopic node_without_error_listener mock_transport
             (VString "hello!") pending_client)
    ≠ Normal false.
Proof. split_and!; [reflexivity | reflexivity | discriminate]. Qed.

(** [pushToTopic] on an instance that holds a channel, with a message
    [Buffer.from] refuses: the arguments of [publish] are evaluated before
    the call, so the error of [Buffer.from] is thrown before anything is
    done. *)
Lemma pushToTopic_refused_message R T s msg ch exchange exchange_name e :
  channel s = Some ch →
  get (configuration s) "exchange" = Normal exchange →
  get exchange "name" = Normal exchange_name →
  Buffer_from R msg = Throw e →
  pushToTopic R T msg s = (Throw e, s, []).
Proof.
  intros Hch Hex Hname Hrefused. run_js; done.
Qed.

(** C6, as the code has it. For every call of [pushToTopic] made after the
    setup has completed, with a message [Buffer.from] encodes, the
    transport's [publish] is invoked exactly once, with the configured
    exchange name, the topic given at construction as routing key and the
    bytes of the message; when [publish] returns [result], exactly one event
    is emitted, a [system] event whose payload is
    [{ pushResult: result, message }], and the call returns [true] when
    that emission returns.  With a message [Buffer.from] refuses, the call
    is rejected with the error of [Buffer.from] before [publish] is
    invoked: it does nothing and emits no event. *)
Theorem pushToTopic_after_setup R T cfg topic_arg opts_arg s0 v msg :
  v ∈ emitted "system" (trace (new_AMPQ R T cfg topic_arg opts_arg s0)) →
  ∃ ch exchange exchange_name,
    get cfg "exchange" = Normal exchange ∧
    get exchange "name" = Normal exchange_name ∧
    (∀ content,
       Buffer_from R msg = Normal content →
       publishes (trace (pushToTopic R T msg
                           (after (new_AMPQ R T cfg topic_arg opts_arg s0))))
         = [(ch, exchange_name, topic_arg, content)] ∧
       ∀ result,
         publish T ch exchange_name topic_arg content = Normal result →
         trace (pushToTopic R T msg
                  (after (new_AMPQ R T cfg topic_arg opts_arg s0)))
           = [Publish ch exchange_name topic_arg content;
              Emit "system"
                (VObject (<["pushResult" := result]>
                         (<["message" := msg]> ∅)))] ∧
         (listeners R "system"
            (VObject (<["pushResult" := result]> (<["message" := msg]> ∅)))
            = None →
          outcome (pushToTopic R T msg
                     (after (new_AMPQ R T cfg topic_arg opts_arg s0)))
            = Normal true)) ∧
    (∀ e,
       Buffer_from R msg = Throw e →
       trace (pushToTopic R T msg
                (after (new_AMPQ R T cfg topic_arg opts_arg s0))) = [] ∧
       publishes (trace (pushToTopic R T msg
                           (after (new_AMPQ R T cfg topic_arg opts_arg s0))))
         = [] ∧
       outcome (pushToTopic R T msg
                  (after (new_AMPQ R T cfg topic_arg opts_arg s0)))
         = Throw e).
Proof.
  intros Hsetup.
  destruct (setup_complete_ready _ _ _ _ _ _ _ Hsetup)
    as (ch & exchange & exchange_name & Hch & Hex & Hname).
  destruct (new_AMPQ_fields R T cfg topic_arg opts_arg s0)
    as (Htopic & Hcfg & _).
  exists ch, exchange, exchange_name.
  split; [exact Hex |]. split; [exact Hname |].
  rewrite <- Hcfg in Hex. split.
  - intros content Hcontent.
    destruct (pushToTopic_with_channel R T _ msg ch exchange exchange_name
                content Hch Hex Hname Hcontent) as [Hpublishes Hreturned].
    rewrite Htopic in Hpublishes, Hreturned. by split.
  - intros e Hrefused.
    rewrite (pushToTopic_refused_message R T _ msg ch exchange exchange_name
               e Hch Hex Hname Hrefused).
    by split_and!.
Qed.

Lemma pushToTopic_after_setup_witness :
  VString "assert success"
    ∈ emitted "system"
        (trace (new_AMPQ node mock_transport pillar_configuration
                  (VString "anything") VUndefined blank)) ∧
  Buffer_from node (VString "hello!")
    = Normal (String.list_byte_of_string "hello!") ∧
  Buffer_from node (VNumber 42)
    = Throw (TypeError
        "The first argument must be of type string or an instance of Buffer, ArrayBuffer, or Array or an Array-like Object.") ∧
  (∃ ch exchange exchange_name,
     get pillar_configuration "exchange" = Normal exchange ∧
     get exchange "name" = Normal exchange_name ∧
     publishes (trace (pushToTopic node mock_transport (VString "hello!")
                         ready_client))
       = [(ch, exchange_name, VString "anything",
           String.list_byte_of_string "hello!")] ∧
     publish mock_transport ch exchange_name (VString "anything")
       (String.list_byte_of_string "hello!")
       = Normal (VString "publish success") ∧
     trace (pushToTopic node mock_transport (VString "hello!") ready_client)
       = [Publish ch exchange_name (VString "anything")
            (String.list_byte_of_string "hello!");
          Emit "system"
            (VObject (<["pushResult" := VString "publish success"]>
                     (<["message" := VString "hello!"]> ∅)))] ∧
     outcome (pushToTopic node mock_transport (VString "hello!")
                ready_client)
       = Normal true) ∧
  trace (pushToTopic node mock_transport (VNumber 42) ready_client) = [] ∧
  outcome (pushToTopic node mock_transport (VNumber 42) ready_client)
    = Throw (TypeError
        "The first argument must be of type string or an instance of Buffer, ArrayBuffer, or Array or an Array-like Object.").
Proof.
  assert (VString "assert success"
            ∈ emitted "system"
                (trace (new_AMPQ node mock_transport pillar_configuration
                          (VString "anything") VUndefined blank)))
    as Hsetup by (apply list_elem_of_singleton; reflexivity).
  destruct (pushToTopic_after_setup node mock_transport pillar_configuration
              (VString "anything") VUndefined blank
              (VString "assert success") (VString "hello!") Hsetup)
    as (ch & exchange & exchange_name & Hex & Hname & Hencoded & _).
  destruct (Hencoded (String.list_byte_of_string "hello!") eq_refl)
    as [Hpublishes Hreturned].
  destruct (Hreturned (VString "publish success") eq_refl)
    as [Htrace Htrue].
  destruct (pushToTopic_after_setup node mock_transport pillar_configuration
              (VString "anything") VUndefined blank
              (VString "assert success") (VNumber 42) Hsetup)
    as (_ & _ & _ & _ & _ & _ & Hrefused).
  destruct (Hrefused _ eq_refl) as (Hnothing & _ & Hrejected).
  split_and!; [exact Hsetup | reflexivity | reflexivity | | exact Hnothing
              | exact Hrejected].
  exists ch, exchange, exchange_name.
  split_and!; [exact Hex | exact Hname | exact Hpublishes | reflexivity
              | exact Htrace | exact (Htrue eq_refl)].
Defined.

(** C6 as stated fails on a message [Buffer.from] refuses: after the setup
    has completed, [pushToTopic(42)] never reaches the transport's
    [publish], emits no [system] event and does not return [true]. *)
Lemma pushToTopic_number_is_not_published :
  emitted "system" (trace (new_AMPQ node mock_transport pillar_configuration
                             (VString "anything") VUndefined blank))
    = [VString "assert success"] ∧
  publishes (trace (pushToTopic node mock_transport (VNumber 42)
                      ready_client)) = [] ∧
  emitted "system" (trace (pushToTopic node mock_transport (VNumber 42)
                             ready_client)) = [] ∧
  completed (outcome (pushToTopic node mock_transport (VNumber 42)
                        ready_client)) = false.
Proof. split_and!; reflexivity. Qed.

(** ** Construction *)

(** C7. Constructing the client with an absent (falsy) configuration throws
    the error [No incoming configuration was found!] synchronously, every
    time: whatever the transport, the runtime and the listeners are, the
    constructor throws, no instance is returned, and nothing has been done
    by then, neither a call of [mq.connect] nor the emission of an event. *)
Theorem constructor_absent_configuration R T cfg topic_arg opts_arg s :
  truthy cfg = false →
  outcome (constructor cfg topic_arg opts_arg s)
    = Throw (Error "No incoming configuration was found!") ∧
  outcome (new_AMPQ R T cfg topic_arg opts_arg s)
    = Throw (Error "No incoming configuration was found!") ∧
  trace (new_AMPQ R T cfg topic_arg opts_arg s) = [].
Proof.
  intros Hcfg. run_js; done.
Qed.

Lemma constructor_absent_configuration_witness :
  truthy VUndefined = false ∧
  outcome (constructor VUndefined (VString "anything") VUndefined blank)
    = Throw (Error "No incoming configuration was found!") ∧
  outcome (new_AMPQ node mock_transport VUndefined (VString "anything")
             VUndefined blank)
    = Throw (Error "No incoming configuration was found!") ∧
  trace (new_AMPQ node mock_transport VUndefined (VString "anything")
           VUndefined blank) = [].
Proof.
  split; [reflexivity |].
  exact (constructor_absent_configuration node mock_transport VUndefined
           (VString "anything") VUndefined blank eq_refl).
Defined.

(** C10. The default [{ consume: true, acknowledge: true }] is the value of
    [this.opts] only when the options argument is omitted: an argument that
    is given is stored as it is, without the defaults being merged in.  With
    a partial options object the missing flag reads [undefined], which is
    not [=== true]: without [consume] the client never subscribes with the
    transport's [consume], and without [acknowledge] no delivery is
    acknowledged. *)
Theorem partial_options R T cfg topic_arg opts_arg props msg s :
  opts (after (constructor cfg topic_arg VUndefined s)) = default_opts ∧
  get default_opts "consume" = Normal (VBool true) ∧
  get default_opts "acknowledge" = Normal (VBool true) ∧
  (opts_arg ≠ VUndefined →
   opts (after (constructor cfg topic_arg opts_arg s)) = opts_arg) ∧
  (props !! "consume" = None →
   get (VObject props) "consume" = Normal VUndefined ∧
   consumes (trace (new_AMPQ R T cfg topic_arg (VObject props) s)) = []) ∧
  (props !! "acknowledge" = None →
   get (VObject props) "acknowledge" = Normal VUndefined ∧
   acks (trace (consumeCallback R T msg
                  (after (new_AMPQ R T cfg topic_arg (VObject props) s))))
     = []).
Proof.
  split_and!.
  - run_js; done.
  - reflexivity.
  - reflexivity.
  - intros Hgiven. destruct opts_arg; run_js; done.
  - intros Hconsume. split.
    + unfold get. by rewrite Hconsume.
    + run_js; done.
  - intros Hack. split.
    + unfold get. by rewrite Hack.
    + destruct (new_AMPQ_fields R T cfg topic_arg (VObject props) s)
        as (_ & _ & Hopts).
      revert Hopts.
      generalize (after (new_AMPQ R T cfg topic_arg (VObject props) s)).
      intros s' Hopts. run_js; done.
Qed.

Lemma partial_options_witness :
  VObject consume_only ≠ VUndefined ∧
  opts (after (constructor pillar_configuration (VString "anything")
                 (VObject consume_only) blank))
    = VObject consume_only ∧
  acknowledge_only !! "consume" = None ∧
  consumes (trace (new_AMPQ node mock_transport pillar_configuration
                     (VString "anything") (VObject acknowledge_only) blank))
    = [] ∧
  consume_only !! "acknowledge" = None ∧
  acks (trace (consumeCallback node mock_transport (delivery "1")
                 (after (new_AMPQ node mock_transport pillar_configuration
                           (VString "anything") (VObject consume_only)
                           blank))))
    = [].
Proof.
  assert (VObject consume_only ≠ VUndefined) as Hgiven by discriminate.
  destruct (partial_options node mock_transport pillar_configuration
              (VString "anything") (VObject acknowledge_only)
              acknowledge_only (delivery "1") blank)
    as (_ & _ & _ & _ & Hconsume & _).
  destruct (partial_options node mock_transport pillar_configuration
              (VString "anything") (VObject consume_only)
              consume_only (delivery "1") blank)
    as (_ & _ & _ & Hstored & _ & Hack).
  split_and!; [exact Hgiven | exact (Hstored Hgiven) | reflexivity
              | exact (proj2 (Hconsume eq_refl)) | reflexivity
              | exact (proj2 (Hack eq_refl))].
Defined.

(** * Further properties of the client *)

(** ** Shared lemmas *)

(** The channel is stored as soon as [createChannel] has answered, and
    nothing resets it. *)
Lemma channel_after_createChannel R T cfg topic_arg opts_arg s conn ch :
  truthy cfg = true →
  connect T cfg = Normal conn →
  createChannel T conn = Normal ch →
  channel (after (new_AMPQ R T cfg topic_arg opts_arg s)) = Some ch.
Proof. intros Hcfg Hconn Hch. run_js; done. Qed.

(** [connectToTopic] reads neither [this.channel] nor [this.connection]
    before it assigns them. *)
Lemma connectToTopic_ignores_handles R T s c c' :
  trace (connectToTopic R T (set_channel c (set_connection c' s)))
    = trace (connectToTopic R T s) ∧
  outcome (connectToTopic R T (set_channel c (set_connection c' s)))
    = outcome (connectToTopic R T s).
Proof. split; run_js; done. Qed.

Lemma connectToTopic_changes_handles_only R T s :
  ∃ c c',
    after (connectToTopic R T s) = set_channel c (set_connection c' s).
Proof.
  destruct s as [ch0 conn0 mq0 topic0 cfg0 opts0].
  run_js; do 2 eexists; unfold set_channel, set_connection; simpl;
    reflexivity.
Qed.

(** ** The consume callback, whatever the delivery *)

(** X1. With [acknowledge] set to [true], every delivery handed to the
    consume callback is acknowledged exactly once on the channel, and the
    acknowledgement is the last thing the callback does: whether the body
    parses or not, and whether the listeners of [message] and [error]
    return or throw. *)
Theorem consumeCallback_acknowledges_once R T s msg ch :
  channel s = Some ch →
  get (opts s) "acknowledge" = Normal (VBool true) →
  acks (trace (consumeCallback R T msg s)) = [(ch, msg)] ∧
  last (trace (consumeCallback R T msg s)) = Some (Ack ch msg).
Proof.
  intros Hch Hack. split; run_js; done.
Qed.

Lemma consumeCallback_acknowledges_once_witness :
  channel ready_client = Some (Handle 1) ∧
  get (opts ready_client) "acknowledge" = Normal (VBool true) ∧
  acks (trace (consumeCallback node_with_failing_listener mock_transport
                 (delivery "1") ready_client))
    = [(Handle 1, delivery "1")] ∧
  last (trace (consumeCallback node_with_failing_listener mock_transport
                 (delivery "1") ready_client))
    = Some (Ack (Handle 1) (delivery "1")).
Proof.
  destruct (consumeCallback_acknowledges_once node_with_failing_listener
              mock_transport ready_client (delivery "1") (Handle 1)
              eq_refl eq_refl) as [Hacks Hlast].
  split_and!; [reflexivity | reflexivity | exact Hacks | exact Hlast].
Defined.

(** X2. Every delivery is reported: the consume callback emits a [message]
    event, or an [error] event, or a [message] event followed by an [error]
    event, and nothing else.  It never emits two [message] events, and the
    payload of its [error] event is always a [SyntaxError], whatever was
    thrown. *)
Theorem consumeCallback_reports_every_delivery R T s msg :
  (∃ payload,
     events (trace (consumeCallback R T msg s)) = [("message", payload)]) ∨
  (∃ m,
     events (trace (consumeCallback R T msg s))
       = [("error", VError (SyntaxError m))]) ∨
  (∃ payload m,
     events (trace (consumeCallback R T msg s))
       = [("message", payload); ("error", VError (SyntaxError m))]).
Proof.
  run_js; eauto.
Qed.

(** X3. When the body parses and the listeners of [message] return, the
    callback emits the [message] event, then acknowledges the delivery, and
    does nothing else: no [error] event.  It completes as the call of
    [ack] does, so an [ack] that throws makes the callback throw. *)
Theorem consumeCallback_parsed R T s msg jsonMessage ch :
  parse_body R msg = Normal jsonMessage →
  listeners R "message" (Object_assign (<["message" := jsonMessage]> ∅) msg)
    = None →
  channel s = Some ch →
  get (opts s) "acknowledge" = Normal (VBool true) →
  trace (consumeCallback R T msg s)
    = [Emit "message" (Object_assign (<["message" := jsonMessage]> ∅) msg);
       Ack ch msg] ∧
  outcome (consumeCallback R T msg s) = ack T ch msg.
Proof.
  intros Hparse Hreturns Hch Hack. split.
  - run_js; done.
  - run_js; try done. by destruct a.
Qed.

Lemma consumeCallback_parsed_witness :
  parse_body node (delivery "1") = Normal (VNumber 1) ∧
  listeners node "message"
    (Object_assign (<["message" := VNumber 1]> ∅) (delivery "1")) = None ∧
  channel ready_client = Some (Handle 1) ∧
  get (opts ready_client) "acknowledge" = Normal (VBool true) ∧
  trace (consumeCallback node mock_transport (delivery "1") ready_client)
    = [Emit "message"
         (Object_assign (<["message" := VNumber 1]> ∅) (delivery "1"));
       Ack (Handle 1) (delivery "1")] ∧
  outcome (consumeCallback node mock_transport (delivery "1") ready_client)
    = Normal tt.
Proof.
  destruct (consumeCallback_parsed node mock_transport ready_client
              (delivery "1") (VNumber 1) (Handle 1)
              eq_refl eq_refl eq_refl eq_refl) as [Htrace Houtcome].
  split_and!; [reflexivity | reflexivity | reflexivity | reflexivity
              | exact Htrace | exact Houtcome].
Defined.

(** X4. An error thrown while the [error] event is emitted from the [catch]
    block is the one that escapes the callback: for a body that does not
    parse, when the emission of [error] throws [e'] (no listener is
    attached to [error], or one throws), the delivery is still acknowledged
    by the [finally] block, and the callback then throws [e'], leaving the
    instance as it was. *)
Theorem consumeCallback_error_listener_throws R T s msg e e' ch :
  parse_body R msg = Throw e →
  listeners R "error" (VError (SyntaxError (message e))) = Some e' →
  channel s = Some ch →
  get (opts s) "acknowledge" = Normal (VBool true) →
  ack T ch msg = Normal tt →
  consumeCallback R T msg s
    = (Throw e', s,
       [Emit "error" (VError (SyntaxError (message e))); Ack ch msg]).
Proof.
  intros Hparse Hthrows Hch Hack Hacked. run_js; done.
Qed.

Lemma consumeCallback_error_listener_throws_witness :
  parse_body node_without_error_listener (delivery "not-json")
    = Throw (SyntaxError "Unexpected token in JSON at position 0") ∧
  listeners node_without_error_listener "error"
    (VError (SyntaxError "Unexpected token in JSON at position 0"))
    = Some (Error "Unhandled error.") ∧
  channel ready_client = Some (Handle 1) ∧
  get (opts ready_client) "acknowledge" = Normal (VBool true) ∧
  ack mock_transport (Handle 1) (delivery "not-json") = Normal tt ∧
  consumeCallback node_without_error_listener mock_transport
    (delivery "not-json") ready_client
    = (Throw (Error "Unhandled error."), ready_client,
       [Emit "error"
          (VError (SyntaxError "Unexpected token in JSON at position 0"));
        Ack (Handle 1) (delivery "not-json")]).
Proof.
  split_and!; [reflexivity | reflexivity | reflexivity | reflexivity
              | reflexivity |].
  exact (consumeCallback_error_listener_throws node_without_error_listener
           mock_transport ready_client (delivery "not-json")
           (SyntaxError "Unexpected token in JSON at position 0")
           (Error "Unhandled error.") (Handle 1)
           eq_refl eq_refl eq_refl eq_refl eq_refl).
Defined.

(** X5. A delivery without a body is handled as a parse failure: when the
    callback is called with [null] or [undefined], or with a record whose
    [content] is missing or [null], reading the body throws a [TypeError]
    before [JSON.parse] is reached, and the callback emits exactly one
    event, an [error] event carrying a [SyntaxError] with the message of
    that [TypeError]. *)
Theorem consumeCallback_without_content R T s msg :
  (∀ content, get msg "content" = Normal content →
              content = VUndefined ∨ content = VNull) →
  ∃ m,
    parse_body R msg = Throw (TypeError m) ∧
    events (trace (consumeCallback R T msg s))
      = [("error", VError (SyntaxError m))].
Proof.
  intros Hcontent.
  assert (∃ m, parse_body R msg = Throw (TypeError m)) as [m Hparse].
  { unfold parse_body.
    destruct (get msg "content") as [content|e] eqn:Hget.
    - destruct (Hcontent content eq_refl) as [-> | ->]; eauto.
    - destruct msg; unfold get in Hget; simplify_eq; eauto. }
  exists m. split; [done |]. run_js; done.
Qed.

Lemma consumeCallback_without_content_witness :
  (∀ content, get VNull "content" = Normal content →
              content = VUndefined ∨ content = VNull) ∧
  ∃ m,
    parse_body node VNull = Throw (TypeError m) ∧
    events (trace (consumeCallback node mock_transport VNull ready_client))
      = [("error", VError (SyntaxError m))].
Proof.
  assert (∀ content, get VNull "content" = Normal content →
                     content = VUndefined ∨ content = VNull) as Hnull
    by (intros content Hget; discriminate Hget).
  split; [exact Hnull |].
  exact (consumeCallback_without_content node mock_transport ready_client
           VNull Hnull).
Defined.

(** X6. Handling a delivery and publishing a message never change the
    instance: after the consume callback and after [pushToTopic], however
    they complete, [channel], [connection], [topic], [configuration] and
    [opts] are what they were. *)
Theorem handlers_leave_instance_unchanged R T s msg :
  after (consumeCallback R T msg s) = s ∧
  after (pushToTopic R T msg s) = s.
Proof. split; run_js; done. Qed.

(** ** Construction *)

(** X7. For a configuration that is present, [mq.connect] is called exactly
    once, first, and with the configuration as it was given; neither
    [connectToTopic] nor [pushToTopic] nor the consume callback ever calls
    it again (there is no reconnection). *)
Theorem connect_called_once R T cfg topic_arg opts_arg s msg :
  truthy cfg = true →
  connects (trace (new_AMPQ R T cfg topic_arg opts_arg s)) = [cfg] ∧
  head (trace (new_AMPQ R T cfg topic_arg opts_arg s)) = Some (Connect cfg) ∧
  connects (trace (connectToTopic R T s)) = [] ∧
  connects (trace (pushToTopic R T msg s)) = [] ∧
  connects (trace (consumeCallback R T msg s)) = [].
Proof. intros Hcfg. split_and!; run_js; done. Qed.

Lemma connect_called_once_witness :
  truthy pillar_configuration = true ∧
  connects (trace (new_AMPQ node mock_transport pillar_configuration
                     (VString "anything") VUndefined blank))
    = [pillar_configuration] ∧
  head (trace (new_AMPQ node mock_transport pillar_configuration
                 (VString "anything") VUndefined blank))
    = Some (Connect pillar_configuration).
Proof.
  destruct (connect_called_once node mock_transport pillar_configuration
              (VString "anything") VUndefined blank (VString "hello!")
              eq_refl) as (Honce & Hfirst & _).
  split_and!; [reflexivity | exact Honce | exact Hfirst].
Defined.



(** X9. When the connection fails, the run is the call of [mq.connect]
    followed by one [error] event carrying the message of the failure, and
    nothing else: no channel is created and [this.channel] stays [null], so
    that a later [pushToTopic] only emits its own [error] event. *)
Theorem connection_failure R T cfg topic_arg opts_arg s e msg :
  truthy cfg = true →
  connect T cfg = Throw e →
  trace (new_AMPQ R T cfg topic_arg opts_arg s)
    = [Connect cfg; Emit "error" (VString (message e))] ∧
  channel (after (new_AMPQ R T cfg topic_arg opts_arg s)) = None ∧
  trace (pushToTopic R T msg (after (new_AMPQ R T cfg topic_arg opts_arg s)))
    = [Emit "error" (VString no_channel_message)].
Proof.
  intros Hcfg Hconn.
  assert (channel (after (new_AMPQ R T cfg topic_arg opts_arg s)) = None)
    as Hnone by (run_js; done).
  split_and!; [run_js; done | done |].
  revert Hnone.
  generalize (after (new_AMPQ R T cfg topic_arg opts_arg s)).
  intros s' Hnone. run_js; done.
Qed.

Lemma connection_failure_witness :
  truthy pillar_configuration = true ∧
  connect unreachable_transport pillar_configuration
    = Throw (Error "connect ECONNREFUSED") ∧
  trace (new_AMPQ node unreachable_transport pillar_configuration
           (VString "anything") VUndefined blank)
    = [Connect pillar_configuration;
       Emit "error" (VString "connect ECONNREFUSED")] ∧
  channel (after (new_AMPQ node unreachable_transport pillar_configuration
                    (VString "anything") VUndefined blank)) = None ∧
  trace (pushToTopic node unreachable_transport (VString "hello!")
           (after (new_AMPQ node unreachable_transport pillar_configuration
                     (VString "anything") VUndefined blank)))
    = [Emit "error" (VString no_channel_message)].
Proof.
  split; [reflexivity |]. split; [reflexivity |].
  exact (connection_failure node unreachable_transport pillar_configuration
           (VString "anything") VUndefined blank
           (Error "connect ECONNREFUSED") (VString "hello!")
           eq_refl eq_refl).
Defined.

(** ** Setup, whatever the transport answers *)



(** X11. A channel never exists without its connection: after a
    construction, [this.channel] holds a channel exactly when the
    configuration was present, the connection was established and that
    connection created this channel; [this.connection] and
    [this.mqConnection] then both hold that connection. *)
Theorem channel_requires_connection R T cfg topic_arg opts_arg s ch :
  channel (after (new_AMPQ R T cfg topic_arg opts_arg s)) = Some ch ↔
  truthy cfg = true ∧
  ∃ conn,
    connect T cfg = Normal conn ∧
    createChannel T conn = Normal ch ∧
    connection (after (new_AMPQ R T cfg topic_arg opts_arg s)) = Some conn ∧
    mqConnection (after (new_AMPQ R T cfg topic_arg opts_arg s)) = Some conn.
Proof.
  split.
  - run_js; intros; simplify_eq; eauto 10.
  - intros (Hcfg & conn & Hconn & Hch & _).
    by apply (channel_after_createChannel _ _ _ _ _ _ conn).
Qed.

Lemma channel_requires_connection_witness :
  channel (after (new_AMPQ node (refusing_transport StepBindQueue)
                    pillar_configuration (VString "anything") VUndefined
                    blank)) = Some (Handle 1) ∧
  truthy pillar_configuration = true ∧
  ∃ conn,
    connect (refusing_transport StepBindQueue) pillar_configuration
      = Normal conn ∧
    createChannel (refusing_transport StepBindQueue) conn
      = Normal (Handle 1) ∧
    connection (after (new_AMPQ node (refusing_transport StepBindQueue)
                         pillar_configuration (VString "anything")
                         VUndefined blank)) = Some conn ∧
    mqConnection (after (new_AMPQ node (refusing_transport StepBindQueue)
                           pillar_configuration (VString "anything")
                           VUndefined blank)) = Some conn.
Proof.
  split; [reflexivity |].
  exact (proj1 (channel_requires_connection node
                  (refusing_transport StepBindQueue) pillar_configuration
                  (VString "anything") VUndefined blank (Handle 1))
           eq_refl).
Defined.

(** X12. [pushToTopic] is guarded by the channel alone, not by the
    completion of the setup: once [createChannel] has succeeded, a message
    is published to the configured exchange with the topic as routing key
    even when the exchange assertion, the queue assertion or the bind has
    failed. *)
Theorem pushToTopic_needs_only_channel R T cfg topic_arg opts_arg s conn ch
    exchange exchange_name msg content :
  truthy cfg = true →
  connect T cfg = Normal conn →
  createChannel T conn = Normal ch →
  get cfg "exchange" = Normal exchange →
  get exchange "name" = Normal exchange_name →
  Buffer_from R msg = Normal content →
  publishes (trace (pushToTopic R T msg
                      (after (new_AMPQ R T cfg topic_arg opts_arg s))))
    = [(ch, exchange_name, topic_arg, content)].
Proof.
  intros Hcfg Hconn Hch Hex Hname Hcontent.
  pose proof (channel_after_createChannel R T cfg topic_arg opts_arg s
                conn ch Hcfg Hconn Hch) as Hchannel.
  destruct (new_AMPQ_fields R T cfg topic_arg opts_arg s)
    as (Htopic & Hconfiguration & _).
  rewrite <- Hconfiguration in Hex.
  destruct (pushToTopic_with_channel R T _ msg ch exchange exchange_name
              content Hchannel Hex Hname Hcontent) as [Hpublishes _].
  by rewrite Htopic in Hpublishes.
Qed.

Lemma pushToTopic_needs_only_channel_witness :
  truthy pillar_configuration = true ∧
  assertQueue (refusing_transport StepAssertQueue) (Handle 1)
    (VString "anything") = Throw (Error "assertQueue refused") ∧
  emitted "system"
    (trace (new_AMPQ node (refusing_transport StepAssertQueue)
              pillar_configuration (VString "anything") VUndefined blank))
    = [] ∧
  publishes (trace (pushToTopic node (refusing_transport StepAssertQueue)
                      (VString "hello!") half_ready_client))
    = [(Handle 1, VString "pillar", VString "anything",
        String.list_byte_of_string "hello!")].
Proof.
  split_and!; [reflexivity | reflexivity | reflexivity |].
  exact (pushToTopic_needs_only_channel node
           (refusing_transport StepAssertQueue) pillar_configuration
           (VString "anything") VUndefined blank (Handle 0) (Handle 1)
           pillar_exchange (VString "pillar") (VString "hello!")
           (String.list_byte_of_string "hello!")
           eq_refl eq_refl eq_refl eq_refl eq_refl eq_refl).
Defined.

(** X13. A configuration that is present but has no [exchange] (a
    connection URL, for instance) passes the check of the constructor: the
    connection is made and the channel is created and stored, then reading
    [exchange.name] throws and one [error] event reports it, before any
    exchange is asserted.  A later [pushToTopic] finds the channel, throws
    the same [TypeError] and is rejected without publishing and without
    emitting any event. *)
Theorem configuration_without_exchange R T cfg topic_arg opts_arg s conn ch
    msg :
  truthy cfg = true →
  get cfg "exchange" = Normal VUndefined →
  connect T cfg = Normal conn →
  createChannel T conn = Normal ch →
  ∃ m,
    trace (new_AMPQ R T cfg topic_arg opts_arg s)
      = [Connect cfg; CreateChannel conn; On conn "error"; On ch "error";
         Emit "error" (VString m)] ∧
    channel (after (new_AMPQ R T cfg topic_arg opts_arg s)) = Some ch ∧
    trace (pushToTopic R T msg
             (after (new_AMPQ R T cfg topic_arg opts_arg s))) = [] ∧
    outcome (pushToTopic R T msg
               (after (new_AMPQ R T cfg topic_arg opts_arg s)))
      = Throw (TypeError m).
Proof.
  intros Hcfg Hex Hconn Hch.
  destruct (new_AMPQ_fields R T cfg topic_arg opts_arg s)
    as (_ & Hconfiguration & _).
  assert (channel (after (new_AMPQ R T cfg topic_arg opts_arg s)) = Some ch)
    as Hchannel by (run_js; done).
  eexists. split_and!.
  - run_js; done.
  - done.
  - revert Hchannel Hconfiguration.
    generalize (after (new_AMPQ R T cfg topic_arg opts_arg s)).
    intros s' Hchannel Hconfiguration. run_js; done.
  - revert Hchannel Hconfiguration.
    generalize (after (new_AMPQ R T cfg topic_arg opts_arg s)).
    intros s' Hchannel Hconfiguration. run_js; done.
Qed.

Lemma configuration_without_exchange_witness :
  truthy url_configuration = true ∧
  get url_configuration "exchange" = Normal VUndefined ∧
  ∃ m,
    trace (new_AMPQ node mock_transport url_configuration
             (VString "anything") VUndefined blank)
      = [Connect url_configuration; CreateChannel (Handle 0);
         On (Handle 0) "error"; On (Handle 1) "error";
         Emit "error" (VString m)] ∧
    channel (after (new_AMPQ node mock_transport url_configuration
                      (VString "anything") VUndefined blank))
      = Some (Handle 1) ∧
    trace (pushToTopic node mock_transport (VString "hello!")
             (after (new_AMPQ node mock_transport url_configuration
                       (VString "anything") VUndefined blank))) = [] ∧
    outcome (pushToTopic node mock_transport (VString "hello!")
               (after (new_AMPQ node mock_transport url_configuration
                         (VString "anything") VUndefined blank)))
      = Throw (TypeError m).
Proof.
  split; [reflexivity |]. split; [reflexivity |].
  exact (configuration_without_exchange node mock_transport
           url_configuration (VString "anything") VUndefined blank
           (Handle 0) (Handle 1) (VString "hello!")
           eq_refl eq_refl eq_refl eq_refl).
Defined.

(** X14. The error listeners are registered on the connection and on the
    channel, in that order, right after the channel has been created and
    before the exchange is asserted; when the channel cannot be created,
    none is registered, not even the one of the connection. *)
Theorem error_listeners_registered R T cfg topic_arg opts_arg s conn :
  truthy cfg = true →
  connect T cfg = Normal conn →
  registrations (trace (new_AMPQ R T cfg topic_arg opts_arg s))
    = match createChannel T conn with
      | Normal ch => [(conn, "error"); (ch, "error")]
      | Throw _ => []
      end ∧
  (∀ ch,
     createChannel T conn = Normal ch →
     take 4 (trace (new_AMPQ R T cfg topic_arg opts_arg s))
       = [Connect cfg; CreateChannel conn; On conn "error";
          On ch "error"]).
Proof.
  intros Hcfg Hconn. split.
  - run_js; done.
  - intros ch Hch. run_js; done.
Qed.

Lemma error_listeners_registered_witness :
  truthy pillar_configuration = true ∧
  registrations (trace (new_AMPQ node closed_transport pillar_configuration
                          (VString "anything") VUndefined blank)) = [] ∧
  registrations (trace (new_AMPQ node mock_transport pillar_configuration
                          (VString "anything") VUndefined blank))
    = [(Handle 0, "error"); (Handle 1, "error")] ∧
  take 4 (trace (new_AMPQ node mock_transport pillar_configuration
                   (VString "anything") VUndefined blank))
    = [Connect pillar_configuration; CreateChannel (Handle 0);
       On (Handle 0) "error"; On (Handle 1) "error"].
Proof.
  destruct (error_listeners_registered node closed_transport
              pillar_configuration (VString "anything") VUndefined blank
              (Handle 0) eq_refl eq_refl) as [Hclosed _].
  destruct (error_listeners_registered node mock_transport
              pillar_configuration (VString "anything") VUndefined blank
              (Handle 0) eq_refl eq_refl) as [Hmock Hfirst].
  split_and!; [reflexivity | exact Hclosed | exact Hmock
              | exact (Hfirst (Handle 1) eq_refl)].
Defined.

(** X15. The client subscribes at most once per construction, to the topic
    and on the channel it holds, and only after the [system] event has been
    emitted and its listeners have returned, with a [consume] flag that is
    [=== true].  A listener of [system] that throws prevents the
    subscription: its error is reported by an [error] event and the
    transport's [consume] is never called. *)
Theorem subscription_follows_system_event R T cfg topic_arg opts_arg s :
  (∀ ch queue,
     (ch, queue) ∈ consumes (trace (new_AMPQ R T cfg topic_arg opts_arg s)) →
     consumes (trace (new_AMPQ R T cfg topic_arg opts_arg s))
       = [(ch, topic_arg)] ∧
     channel (after (new_AMPQ R T cfg topic_arg opts_arg s)) = Some ch ∧
     ∃ result flag,
       emitted "system" (trace (new_AMPQ R T cfg topic_arg opts_arg s))
         = [result] ∧
       listeners R "system" result = None ∧
       get (default_parameter opts_arg default_opts) "consume"
         = Normal flag ∧
       is_true flag = true) ∧
  (∀ result e,
     result ∈ emitted "system"
                (trace (new_AMPQ R T cfg topic_arg opts_arg s)) →
     listeners R "system" result = Some e →
     consumes (trace (new_AMPQ R T cfg topic_arg opts_arg s)) = [] ∧
     events (trace (new_AMPQ R T cfg topic_arg opts_arg s))
       = [("system", result); ("error", VString (message e))]).
Proof.
  split.
  - intros ch queue. run_js; intros Hin; try (by apply elem_of_nil in Hin);
      apply list_elem_of_singleton in Hin; simplify_eq;
      (split_and!; [reflexivity | reflexivity |]);
      do 2 eexists; split_and!; first [reflexivity | eassumption].
  - intros result e. run_js; intros Hin Hthrows;
      try (by apply elem_of_nil in Hin);
      apply list_elem_of_singleton in Hin; simplify_eq; done.
Qed.

Lemma subscription_follows_system_event_witness :
  (Handle 1, VString "anything")
    ∈ consumes (trace (new_AMPQ node mock_transport pillar_configuration
                         (VString "anything") VUndefined blank)) ∧
  consumes (trace (new_AMPQ node mock_transport pillar_configuration
                     (VString "anything") VUndefined blank))
    = [(Handle 1, VString "anything")] ∧
  VString "assert success"
    ∈ emitted "system"
        (trace (new_AMPQ node_with_failing_system_listener mock_transport
                  pillar_configuration (VString "anything") VUndefined
                  blank)) ∧
  listeners node_with_failing_system_listener "system"
    (VString "assert success") = Some (Error "system listener failed") ∧
  consumes (trace (new_AMPQ node_with_failing_system_listener
                     mock_transport pillar_configuration
                     (VString "anything") VUndefined blank)) = [] ∧
  events (trace (new_AMPQ node_with_failing_system_listener mock_transport
                   pillar_configuration (VString "anything") VUndefined
                   blank))
    = [("system", VString "assert success");
       ("error", VString "system listener failed")].
Proof.
  assert ((Handle 1, VString "anything")
            ∈ consumes (trace (new_AMPQ node mock_transport
                                 pillar_configuration (VString "anything")
                                 VUndefined blank))) as Hsubscribed
    by (apply list_elem_of_singleton; reflexivity).
  assert (VString "assert success"
            ∈ emitted "system"
                (trace (new_AMPQ node_with_failing_system_listener
                          mock_transport pillar_configuration
                          (VString "anything") VUndefined blank)))
    as Hsystem by (apply list_elem_of_singleton; reflexivity).
  destruct (subscription_follows_system_event node mock_transport
              pillar_configuration (VString "anything") VUndefined blank)
    as [Honce _].
  destruct (subscription_follows_system_event
              node_with_failing_system_listener mock_transport
              pillar_configuration (VString "anything") VUndefined blank)
    as [_ Hprevented].
  destruct (Hprevented (VString "assert success")
              (Error "system listener failed") Hsystem eq_refl)
    as [Hnone Hevents].
  split_and!; [exact Hsubscribed
              | exact (proj1 (Honce _ _ Hsubscribed))
              | exact Hsystem | reflexivity | exact Hnone | exact Hevents].
Defined.

(** X16. Options from which the flags cannot be read ([null] given as the
    options argument) are only looked at once the setup is over: after the
    [system] event has been emitted, reading [opts.consume] throws, which
    one [error] event carrying the message of that failure reports, and the
    client never subscribes. *)
Theorem options_without_flags R T cfg topic_arg opts_arg s e :
  get (default_parameter opts_arg default_opts) "consume" = Throw e →
  (∀ result,
     result ∈ emitted "system"
                (trace (new_AMPQ R T cfg topic_arg opts_arg s)) →
     listeners R "system" result = None →
     events (trace (new_AMPQ R T cfg topic_arg opts_arg s))
       = [("system", result); ("error", VString (message e))]) ∧
  consumes (trace (new_AMPQ R T cfg topic_arg opts_arg s)) = [].
Proof.
  intros Hopts. split.
  - intros result. run_js; intros Hin Hreturns;
      try (by apply elem_of_nil in Hin);
      apply list_elem_of_singleton in Hin; simplify_eq; done.
  - run_js; done.
Qed.

Lemma options_without_flags_witness :
  get (default_parameter VNull default_opts) "consume"
    = Throw (TypeError "Cannot read property 'consume' of null") ∧
  VString "assert success"
    ∈ emitted "system"
        (trace (new_AMPQ node mock_transport pillar_configuration
                  (VString "anything") VNull blank)) ∧
  listeners node "system" (VString "assert success") = None ∧
  events (trace (new_AMPQ node mock_transport pillar_configuration
                   (VString "anything") VNull blank))
    = [("system", VString "assert success");
       ("error", VString "Cannot read property 'consume' of null")] ∧
  consumes (trace (new_AMPQ node mock_transport pillar_configuration
                     (VString "anything") VNull blank)) = [].
Proof.
  assert (VString "assert success"
            ∈ emitted "system"
                (trace (new_AMPQ node mock_transport pillar_configuration
                          (VString "anything") VNull blank)))
    as Hsystem by (apply list_elem_of_singleton; reflexivity).
  destruct (options_without_flags node mock_transport pillar_configuration
              (VString "anything") VNull blank
              (TypeError "Cannot read property 'consume' of null") eq_refl)
    as [Hevents Hnone].
  split_and!; [reflexivity | exact Hsystem | reflexivity
              | exact (Hevents _ Hsystem eq_refl) | exact Hnone].
Defined.

(** ** [connectToTopic] called directly *)

(** X17. [connectToTopic] called before the connection is established
    (while [this.mqConnection] is not assigned) is rejected without any
    transport operation and without any event: the failure is not turned
    into an [error] event here, and [this.channel] is left as it was. *)
Theorem connectToTopic_before_connection R T s :
  mqConnection s = None →
  trace (connectToTopic R T s) = [] ∧
  completed (outcome (connectToTopic R T s)) = false ∧
  channel (after (connectToTopic R T s)) = channel s.
Proof. intros Hmq. split_and!; run_js; done. Qed.

Lemma connectToTopic_before_connection_witness :
  mqConnection pending_client = None ∧
  trace (connectToTopic node mock_transport pending_client) = [] ∧
  completed (outcome (connectToTopic node mock_transport pending_client))
    = false ∧
  channel (after (connectToTopic node mock_transport pending_client))
    = channel pending_client.
Proof.
  split; [reflexivity |].
  exact (connectToTopic_before_connection node mock_transport
           pending_client eq_refl).
Defined.

(** X18. [connectToTopic] has no guard against a second run: called again
    on the instance a first run has left, whether that run succeeded or
    not, and the transport answering as before, it performs the same
    operations and emits the same events again and completes the same way.
    On an instance already set up the channel is thus created a second
    time and the queue subscribed to a second time. *)
Theorem connectToTopic_runs_again R T s :
  trace (connectToTopic R T (after (connectToTopic R T s)))
    = trace (connectToTopic R T s) ∧
  outcome (connectToTopic R T (after (connectToTopic R T s)))
    = outcome (connectToTopic R T s).
Proof.
  destruct (connectToTopic_changes_handles_only R T s) as (c & c' & ->).
  apply connectToTopic_ignores_handles.
Qed.

(** ** Publishing *)

(** X19. A failure of the transport's [publish] rejects the call of
    [pushToTopic] with that failure: nothing catches it, so there is no
    [error] event and no [system] event, and the one call of [publish] is
    all the call has done. *)
Theorem pushToTopic_publish_failure R T s msg ch exchange exchange_name
    content e :
  channel s = Some ch →
  get (configuration s) "exchange" = Normal exchange →
  get exchange "name" = Normal exchange_name →
  Buffer_from R msg = Normal content →
  publish T ch exchange_name (topic s) content = Throw e →
  pushToTopic R T msg s
    = (Throw e, s, [Publish ch exchange_name (topic s) content]).
Proof.
  intros Hch Hex Hname Hcontent Hpublish. run_js; done.
Qed.

Lemma pushToTopic_publish_failure_witness :
  channel ready_client = Some (Handle 1) ∧
  get (configuration ready_client) "exchange" = Normal pillar_exchange ∧
  get pillar_exchange "name" = Normal (VString "pillar") ∧
  Buffer_from node (VString "hello!")
    = Normal (String.list_byte_of_string "hello!") ∧
  publish congested_transport (Handle 1) (VString "pillar")
    (topic ready_client) (String.list_byte_of_string "hello!")
    = Throw (Error "Channel closed") ∧
  pushToTopic node congested_transport (VString "hello!") ready_client
    = (Throw (Error "Channel closed"), ready_client,
       [Publish (Handle 1) (VString "pillar") (topic ready_client)
          (String.list_byte_of_string "hello!")]).
Proof.
  split_and!; [reflexivity | reflexivity | reflexivity | reflexivity
              | reflexivity |].
  exact (pushToTopic_publish_failure node congested_transport ready_client
           (VString "hello!") (Handle 1) pillar_exchange (VString "pillar")
           (String.list_byte_of_string "hello!") (Error "Channel closed")
           eq_refl eq_refl eq_refl eq_refl eq_refl).
Defined.

(** X20. Whatever the instance and the message, [pushToTopic] makes no
    setup operation, registers no listener and subscribes to nothing; it
    calls [publish] at most once and emits at most one event.  A [system]
    event is emitted only after a [publish] that returned, and carries the
    value [publish] returned as [pushResult] and the message given as
    [message]; an [error] event is emitted only when there is no channel,
    and then nothing is published. *)
Theorem pushToTopic_only_publishes R T s msg :
  setup_steps (trace (pushToTopic R T msg s)) = [] ∧
  registrations (trace (pushToTopic R T msg s)) = [] ∧
  consumes (trace (pushToTopic R T msg s)) = [] ∧
  length (publishes (trace (pushToTopic R T msg s))) ≤ 1 ∧
  length (events (trace (pushToTopic R T msg s))) ≤ 1 ∧
  (∀ payload,
     ("system", payload) ∈ events (trace (pushToTopic R T msg s)) →
     ∃ ch exchange_name content result,
       trace (pushToTopic R T msg s)
         = [Publish ch exchange_name (topic s) content;
            Emit "system" payload] ∧
       publish T ch exchange_name (topic s) content = Normal result ∧
       get payload "pushResult" = Normal result ∧
       get payload "message" = Normal msg) ∧
  (∀ payload,
     ("error", payload) ∈ events (trace (pushToTopic R T msg s)) →
     channel s = None ∧ publishes (trace (pushToTopic R T msg s)) = []).
Proof.
  split_and!.
  - run_js; done.
  - run_js; done.
  - run_js; done.
  - run_js; simpl; lia.
  - run_js; simpl; lia.
  - intros payload. run_js; intros Hin; try (by apply elem_of_nil in Hin);
      apply list_elem_of_singleton in Hin; simplify_eq;
      do 4 eexists; split_and!; first [reflexivity | eassumption].
  - intros payload. run_js; intros Hin; try (by apply elem_of_nil in Hin);
      apply list_elem_of_singleton in Hin; by simplify_eq.
Qed.

Lemma pushToTopic_only_publishes_witness :
  ("system",
   VObject (<["pushResult" := VString "publish success"]>
           (<["message" := VString "hello!"]> ∅)))
    ∈ events (trace (pushToTopic node mock_transport (VString "hello!")
                       ready_client)) ∧
  get (VObject (<["pushResult" := VString "publish success"]>
               (<["message" := VString "hello!"]> ∅))) "message"
    = Normal (VString "hello!") ∧
  ("error", VString no_channel_message)
    ∈ events (trace (pushToTopic node mock_transport (VString "hello!")
                       pending_client)) ∧
  channel pending_client = None ∧
  publishes (trace (pushToTopic node mock_transport (VString "hello!")
                      pending_client)) = [].
Proof.
  assert (("system",
           VObject (<["pushResult" := VString "publish success"]>
                   (<["message" := VString "hello!"]> ∅)))
            ∈ events (trace (pushToTopic node mock_transport
                               (VString "hello!") ready_client)))
    as Hsystem by (apply list_elem_of_singleton; reflexivity).
  assert (("error", VString no_channel_message)
            ∈ events (trace (pushToTopic node mock_transport
                               (VString "hello!") pending_client)))
    as Herror by (apply list_elem_of_singleton; reflexivity).
  destruct (pushToTopic_only_publishes node mock_transport ready_client
              (VString "hello!")) as (_ & _ & _ & _ & _ & Hpublished & _).
  destruct (pushToTopic_only_publishes node mock_transport pending_client
              (VString "hello!")) as (_ & _ & _ & _ & _ & _ & Hguarded).
  destruct (Hpublished _ Hsystem)
    as (ch & exchange_name & content & result & _ & _ & _ & Hmessage).
  destruct (Hguarded _ Herror) as [Hnone Hnothing].
  split_and!; [exact Hsystem | exact Hmessage | exact Herror | exact Hnone
              | exact Hnothing].
Defined.
